(** * DialogContainer: event tracing and version-change detection

    A shallow embedding of
    [libraries/botbuilder-dialogs/botbuilder/dialogs/dialog_container.py].

    The container's methods are written in a small monad that threads the
    objects reachable from a call ([self], the [dialog_context], and the
    ambient turn environment), keeps the world as it stands when an
    exception is raised (a Python mutation made before a [raise] is not
    rolled back), and records every call the container makes to one of its
    collaborators. *)

From Stdlib Require Import String List Bool Arith Lia.
Import ListNotations.
Open Scope string_scope.

(** ** Python values the code relies on *)

(** Exceptions.  [AttributeError] is what attribute access on [None]
    raises; [NotImplementedError] is raised by the abstract method;
    [Failure] stands for any other exception a collaborator raises. *)
Inductive exn : Type :=
| AttributeError (msg : string)
| NotImplementedError
| DuplicateIdError (dialog_id : string)
| Failure (msg : string).

Inductive result (A : Type) : Type :=
| Ok (a : A)
| Raise (e : exn).
Arguments Ok {A} a.
Arguments Raise {A} e.

(** Truth value of an [Optional[str]]: [None] and the empty string are
    falsy. *)
Definition truthy (v : option string) : bool :=
  match v with
  | None => false
  | Some s => negb (s =? "")
  end.

(** [a != b] on [Optional[str]]. *)
Definition py_ne (a b : option string) : bool :=
  match a, b with
  | None, None => false
  | Some x, Some y => negb (x =? y)
  | _, _ => true
  end.

(** The message of the [AttributeError] raised by [None.attr]. *)
Definition none_has_no (attr : string) : exn :=
  AttributeError ("'NoneType' object has no attribute '" ++ attr ++ "'").

(** ** Data model *)

Module DialogEvents.
(** Modelled from the spec: the enumeration [DialogEvents] is imported
    from [dialog_events], which is not part of the sources at hand; the
    spec gives the well-known name of the version-change event. *)
Definition version_changed : string := "versionChanged".
End DialogEvents.

Module DialogEvent.
(** [DialogEvent]: a name, a payload and the bubbling flag. *)
Record t : Type := mk { name : string; value : string; bubble : bool }.
End DialogEvent.

Module DialogInstance.
(** The persisted record of one active dialog:
    [{ id: string, state: opaque, version: string | null }]. *)
Record t : Type := mk {
  id : string;
  state : list (string * string);
  version : option string
}.

Definition with_version (v : option string) (i : t) : t :=
  {| id := id i; state := state i; version := v |}.
End DialogInstance.

Module Dialog.
(** What a [DialogSet] sees of a member: its id and the version it
    declares, if any. *)
Record t : Type := mk { id : string; version : option string }.
End Dialog.

Module DialogSet.
(** Modelled from the spec: the class [DialogSet] is imported from
    [dialog_set], which is not part of the sources at hand.  It is a
    mapping from id to Dialog with unique keys whose order is stable for
    fingerprinting, hence an association list in insertion order. *)
Record t : Type := mk { members : list Dialog.t }.

Definition empty : t := {| members := [] |}.

(** Modelled from the spec: the lookup the container calls as
    [find_dialog] (the spec's [find]): the Dialog registered under the
    id, or the not-found result; it never throws. *)
Definition find_dialog (ds : t) (dialog_id : string) : option Dialog.t :=
  List.find (fun d => Dialog.id d =? dialog_id) (members ds).

(** Modelled from the spec: [add] registers a Dialog under its id and
    rejects an id that is already present. *)
Definition add (ds : t) (d : Dialog.t) : result t :=
  match find_dialog ds (Dialog.id d) with
  | Some _ => Raise (DuplicateIdError (Dialog.id d))
  | None => Ok {| members := members ds ++ [d] |}
  end.

(** What the fingerprint is computed from: ids and declared versions of
    the members, in order. *)
Definition shape (ds : t) : list (string * option string) :=
  map (fun d => (Dialog.id d, Dialog.version d)) (members ds).

(** Modelled from the spec: [get_internal_version] combines the ids and
    declared versions of all current members into one token; the
    combining function (a hash) is a parameter. *)
Definition get_internal_version
    (fingerprint : list (string * option string) -> string) (ds : t) : string :=
  fingerprint (shape ds).
End DialogSet.

Module DialogContext.
(** The stack of active instances, innermost first: [active_dialog] is
    the head.  The turn context and the parent link are collaborators
    and live in the environment of the world. *)
Record t : Type := mk { stack : list DialogInstance.t }.

(** Modelled from the spec: [active_dialog] is the top of the stack, or
    undefined ([None]) when the stack is empty. *)
Definition active_dialog (dc : t) : option DialogInstance.t :=
  match stack dc with
  | [] => None
  | i :: _ => Some i
  end.
End DialogContext.

(** The state of a [DialogContainer] object: [Dialog.id] set by
    [super().__init__(dialog_id)] and the [dialogs] attribute. *)
Record Container : Type := mkContainer {
  container_id : string;
  dialogs : DialogSet.t
}.

(** [DialogContainer.__init__]: the set of children starts empty. *)
Definition init (dialog_id : string) : Container :=
  {| container_id := dialog_id; dialogs := DialogSet.empty |}.

(** ** The world a call runs in *)

(** [self], the [dialog_context] argument, and everything else the
    collaborators may read or write ([Env]: the turn context, parent
    contexts, application state). *)
Record World (Env : Type) : Type := mkWorld {
  self : Container;
  dialog_context : DialogContext.t;
  env : Env
}.
Arguments mkWorld {Env} _ _ _.
Arguments self {Env} _.
Arguments dialog_context {Env} _.
Arguments env {Env} _.

(** The calls a container makes to its collaborators. *)
Inductive Call : Type :=
| SuperOnDialogEvent (e : DialogEvent.t)
| SendTraceActivity (message : string)
| EmitEvent (name : string) (value : string) (bubble from_leaf : bool).

(** What a call leaves behind: the world, the collaborator calls it made
    in order, and its return value or the exception it raised. *)
Record Outcome (Env A : Type) : Type := mkOutcome {
  final : World Env;
  calls : list Call;
  res : result A
}.
Arguments mkOutcome {Env A} _ _ _.
Arguments final {Env A} _.
Arguments calls {Env A} _.
Arguments res {Env A} _.

Definition M (Env A : Type) : Type := World Env -> Outcome Env A.

(** An external routine: it may change the world and return or raise; it
    has no access to the record of calls. *)
Definition External (Env A : Type) : Type := World Env -> World Env * result A.

(** The collaborators of a container, none of which is defined in
    [dialog_container.py]. *)
Class Collaborators (Env : Type) : Type := {
  (** the hash behind [DialogSet.get_internal_version] *)
  fingerprint : list (string * option string) -> string;
  (** [Dialog.on_dialog_event], reached through [super()] *)
  Dialog_on_dialog_event : DialogEvent.t -> External Env bool;
  (** [DialogContext.emit_event(name, value, bubble, from_leaf)] *)
  emit_event : string -> string -> bool -> bool -> External Env bool;
  (** [TurnContext.send_trace_activity(message)] *)
  send_trace_activity : string -> External Env unit;
  (** a subclass's own [get_internal_version], when it overrides the
      default; it reads the world and returns a token *)
  get_internal_version_override : option (World Env -> string)
}.

Module DialogContainer.
Section Methods.
Context {Env : Type} {host : Collaborators Env}.

(** *** The monad *)

Definition ret {A} (a : A) : M Env A :=
  fun w => mkOutcome w [] (Ok a).

Definition raise {A} (e : exn) : M Env A :=
  fun w => mkOutcome w [] (Raise e).

Definition bind {A B} (m : M Env A) (k : A -> M Env B) : M Env B :=
  fun w =>
    let o := m w in
    match res o with
    | Ok a =>
        let o' := k a (final o) in
        mkOutcome (final o') (calls o ++ calls o') (res o')
    | Raise e => mkOutcome (final o) (calls o) (Raise e)
    end.

(** Call a collaborator (awaited where the source awaits) and record
    the call. *)
Definition call {A} (c : Call) (f : External Env A) : M Env A :=
  fun w => let '(w', r) := f w in mkOutcome w' [c] r.

Notation "x <- m ;; k" := (bind m (fun x => k))
  (at level 61, m at next level, right associativity).
Notation "m ;;; k" := (bind m (fun _ => k))
  (at level 61, right associativity).

(** *** Attribute access on [dialog_context.active_dialog] *)

(** [dialog_context.active_dialog.<attr>], read. *)
Definition active_dialog_attr {A} (attr : string)
    (proj : DialogInstance.t -> A) : M Env A :=
  fun w =>
    match DialogContext.active_dialog (dialog_context w) with
    | None => raise (none_has_no attr) w
    | Some i => ret (proj i) w
    end.

(** The world after [active_dialog.version = v], the instance on top of
    the stack being updated in place. *)
Definition store_version (v : option string) (w : World Env) : World Env :=
  match DialogContext.stack (dialog_context w) with
  | [] => w
  | i :: rest =>
      mkWorld (self w)
              (DialogContext.mk (DialogInstance.with_version v i :: rest))
              (env w)
  end.

(** [dialog_context.active_dialog.version = v]. *)
Definition set_active_dialog_version (v : option string) : M Env unit :=
  fun w =>
    match DialogContext.active_dialog (dialog_context w) with
    | None => raise (none_has_no "version") w
    | Some _ => mkOutcome (store_version v w) [] (Ok tt)
    end.

(** *** Methods of [DialogContainer] *)

(** [create_child_context]: abstract. *)
Definition create_child_context : M Env DialogContext.t :=
  raise NotImplementedError.

(** [find_dialog(dialog_id)]. *)
Definition find_dialog (dialog_id : string) : M Env (option Dialog.t) :=
  fun w => ret (DialogSet.find_dialog (dialogs (self w)) dialog_id) w.

(** [get_internal_version()], as defined in [DialogContainer]. *)
Definition get_internal_version : M Env string :=
  fun w => ret (DialogSet.get_internal_version fingerprint (dialogs (self w))) w.

(** [self.get_internal_version()]: the subclass's method when there is
    one, else the one above. *)
Definition self_get_internal_version : M Env string :=
  match get_internal_version_override with
  | Some f => fun w => ret (f w) w
  | None => get_internal_version
  end.

(** The f-string of the trace. *)
Definition trace_message (event_name active_id : string) : string :=
  "Unhandled dialog event: " ++ event_name ++ ". Active Dialog: " ++ active_id.

(** [on_dialog_event(dialog_context, dialog_event)]. *)
Definition on_dialog_event (dialog_event : DialogEvent.t) : M Env bool :=
  handled <- call (SuperOnDialogEvent dialog_event)
                  (Dialog_on_dialog_event dialog_event) ;;
  if negb handled
     && (DialogEvent.name dialog_event =? DialogEvents.version_changed)
  then
    active_id <- active_dialog_attr "id" DialogInstance.id ;;
    let message := trace_message (DialogEvent.name dialog_event) active_id in
    call (SendTraceActivity message) (send_trace_activity message) ;;;
    ret handled
  else
    ret handled.

(** [check_for_version_change_async(dialog_context)]. *)
Definition check_for_version_change_async : M Env unit :=
  current <- active_dialog_attr "version" DialogInstance.version ;;
  next <- self_get_internal_version ;;
  set_active_dialog_version (Some next) ;;;
  if truthy current then
    stored <- active_dialog_attr "version" DialogInstance.version ;;
    if py_ne current stored then
      self_id <- (fun w => ret (container_id (self w)) w) ;;
      call (EmitEvent DialogEvents.version_changed self_id true false)
           (emit_event DialogEvents.version_changed self_id true false) ;;;
      ret tt
    else ret tt
  else ret tt.

End Methods.
End DialogContainer.


(** ** Vocabulary of the properties *)

Section Vocabulary.
Context {Env : Type} {host : Collaborators Env}.

(** The token [self.get_internal_version()] returns in a world. *)
Definition version_token (w : World Env) : string :=
  match get_internal_version_override with
  | Some f => f w
  | None => DialogSet.get_internal_version fingerprint (dialogs (self w))
  end.

(** [active_dialog.version], when there is an active dialog. *)
Definition stored_version (w : World Env) : option (option string) :=
  option_map DialogInstance.version
             (DialogContext.active_dialog (dialog_context w)).

(** The stack of the [dialog_context]. *)
Definition stack_of (w : World Env) : list DialogInstance.t :=
  DialogContext.stack (dialog_context w).

(** An external routine that leaves the stack of instances as it is. *)
Definition keeps_stack {A} (f : External Env A) : Prop :=
  forall w, stack_of (fst (f w)) = stack_of w.

End Vocabulary.

(** The event [check_for_version_change_async] raises for a container. *)
Definition version_changed_event (container : string) : Call :=
  EmitEvent "versionChanged" container true false.

Definition is_emit (c : Call) : bool :=
  match c with EmitEvent _ _ _ _ => true | _ => false end.

Definition is_trace (c : Call) : bool :=
  match c with SendTraceActivity _ => true | _ => false end.

(** [needle] occurs in [hay]. *)
Definition contains (hay needle : string) : Prop :=
  exists pre post, hay = pre ++ needle ++ post.

(** ** Concrete collaborators

    The environment is the list of trace messages delivered so far. *)

Definition join_shape (l : list (string * option string)) : string :=
  String.concat ";"
    (map (fun p => fst p ++ "=" ++ match snd p with Some v => v | None => "" end) l).

Definition deliver (message : string) : External (list string) unit :=
  fun w => (mkWorld (self w) (dialog_context w) (app (env w) [message]), Ok tt).

(** Nobody handles anything; traces are delivered. *)
Definition nobody_handles : Collaborators (list string) := {|
  fingerprint := join_shape;
  Dialog_on_dialog_event := fun _ w => (w, Ok false);
  emit_event := fun _ _ _ _ w => (w, Ok false);
  send_trace_activity := deliver;
  get_internal_version_override := None
|}.

(** The application handles every event that is raised. *)
Definition app_handles : Collaborators (list string) := {|
  fingerprint := join_shape;
  Dialog_on_dialog_event := fun _ w => (w, Ok true);
  emit_event := fun _ _ _ _ w => (w, Ok true);
  send_trace_activity := deliver;
  get_internal_version_override := None
|}.

(** The base handler fails on the event named ["boom"], and the trace
    sink is down. *)
Definition broken : Collaborators (list string) := {|
  fingerprint := join_shape;
  Dialog_on_dialog_event := fun e w =>
    if DialogEvent.name e =? "boom" then (w, Raise (Failure "handler"))
    else (w, Ok false);
  emit_event := fun _ _ _ _ w => (w, Raise (Failure "emit"));
  send_trace_activity := fun _ w => (w, Raise (Failure "sink"));
  get_internal_version_override := None
|}.

(** A container ["root"] with children ["a"] and ["b"], running on a stack
    whose active instance last saw the fingerprint ["F1"]. *)
Definition two_children : Container :=
  {| container_id := "root";
     dialogs := DialogSet.mk [Dialog.mk "a" None; Dialog.mk "b" (Some "2")] |}.

Definition stale_world : World (list string) :=
  mkWorld two_children
          (DialogContext.mk [DialogInstance.mk "root" [] (Some "F1");
                             DialogInstance.mk "main" [] None])
          [].

(** The same container on its first run: no version stored yet. *)
Definition first_run_world : World (list string) :=
  mkWorld two_children
          (DialogContext.mk [DialogInstance.mk "root" [] None])
          [].

(** The same container on an empty stack. *)
Definition idle_world : World (list string) :=
  mkWorld two_children (DialogContext.mk []) [].

(** A world whose container has got another set of children. *)
Definition with_dialogs {Env} (ds : DialogSet.t) (w : World Env) : World Env :=
  mkWorld (mkContainer (container_id (self w)) ds) (dialog_context w) (env w).

Definition version_changed_on (container : string) : DialogEvent.t :=
  DialogEvent.mk "versionChanged" container true.

(** ** Successive runs

    The version check is meant to run at the start of every [begin],
    [continue] and [resume] of a concrete container: [check_n n] is [n]
    such runs in a row, the later ones taking place only if the earlier
    ones returned. *)

Section Successive.
Context {Env : Type} {host : Collaborators Env}.

Fixpoint check_n (n : nat) : M Env unit :=
  match n with
  | 0 => DialogContainer.ret tt
  | S k =>
      DialogContainer.bind DialogContainer.check_for_version_change_async
                           (fun _ => check_n k)
  end.

End Successive.

(** The fingerprint of every set is the empty string. *)
Definition blank_hash : Collaborators (list string) := {|
  fingerprint := fun _ => "";
  Dialog_on_dialog_event := fun _ w => (w, Ok false);
  emit_event := fun _ _ _ _ w => (w, Ok false);
  send_trace_activity := deliver;
  get_internal_version_override := None
|}.

(** The application answers an event by registering one more child,
    ["c"], in the container. *)
Definition grows_on_event : Collaborators (list string) := {|
  fingerprint := join_shape;
  Dialog_on_dialog_event := fun _ w => (w, Ok false);
  emit_event := fun _ _ _ _ w =>
    (with_dialogs
       (DialogSet.mk (DialogSet.members (dialogs (self w)) ++ [Dialog.mk "c" None]))
       w,
     Ok true);
  send_trace_activity := deliver;
  get_internal_version_override := None
|}.

(** The container on a stack whose active instance holds the current
    fingerprint. *)
Definition current_world : World (list string) :=
  mkWorld two_children
          (DialogContext.mk [DialogInstance.mk "root" [("step", "2")] (Some "a=;b=2");
                             DialogInstance.mk "main" [] None])
          ["hello"].

(** The application answers an event by ending the active dialog: the
    instance on top of the stack is popped. *)
Definition ends_dialog_on_event : Collaborators (list string) := {|
  fingerprint := join_shape;
  Dialog_on_dialog_event := fun _ w => (w, Ok false);
  emit_event := fun _ _ _ _ w =>
    (mkWorld (self w)
             (DialogContext.mk (tl (DialogContext.stack (dialog_context w))))
             (env w),
     Ok true);
  send_trace_activity := deliver;
  get_internal_version_override := None
|}.

(** The application answers an event by stamping the active instance
    with a version of its own. *)
Definition restamps_on_event : Collaborators (list string) := {|
  fingerprint := join_shape;
  Dialog_on_dialog_event := fun _ w => (w, Ok false);
  emit_event := fun _ _ _ _ w =>
    (DialogContainer.store_version (Some "custom") w, Ok true);
  send_trace_activity := deliver;
  get_internal_version_override := None
|}.


(** ** Running the methods *)

Section Runs.
Context {Env : Type} {host : Collaborators Env}.
Import DialogContainer.

Lemma self_get_internal_version_run (w : World Env) :
  self_get_internal_version w = mkOutcome w [] (Ok (version_token w)).
Proof.
  unfold self_get_internal_version, version_token, get_internal_version, ret.
  destruct get_internal_version_override; reflexivity.
Qed.

Lemma active_dialog_attr_some {A} attr (proj : DialogInstance.t -> A)
    (w : World Env) i :
  DialogContext.active_dialog (dialog_context w) = Some i ->
  active_dialog_attr attr proj w = mkOutcome w [] (Ok (proj i)).
Proof. intros E. unfold active_dialog_attr. rewrite E. reflexivity. Qed.

Lemma active_dialog_attr_none {A} attr (proj : DialogInstance.t -> A)
    (w : World Env) :
  DialogContext.active_dialog (dialog_context w) = None ->
  active_dialog_attr attr proj w = mkOutcome w [] (Raise (none_has_no attr)).
Proof. intros E. unfold active_dialog_attr. rewrite E. reflexivity. Qed.

Lemma active_of_stack (w : World Env) d rest :
  stack_of w = d :: rest ->
  DialogContext.active_dialog (dialog_context w) = Some d.
Proof.
  unfold stack_of, DialogContext.active_dialog. intros ->. reflexivity.
Qed.

Lemma active_none_of_stack (w : World Env) :
  stack_of w = [] ->
  DialogContext.active_dialog (dialog_context w) = None.
Proof.
  unfold stack_of, DialogContext.active_dialog. intros ->. reflexivity.
Qed.

Lemma stack_of_active (w : World Env) d :
  DialogContext.active_dialog (dialog_context w) = Some d ->
  exists rest, stack_of w = d :: rest.
Proof.
  unfold stack_of, DialogContext.active_dialog.
  destruct (DialogContext.stack (dialog_context w)) as [|i rest]; intros E.
  - discriminate.
  - injection E as ->. now exists rest.
Qed.

Lemma store_version_stack (w : World Env) v d rest :
  stack_of w = d :: rest ->
  store_version v w =
  mkWorld (self w)
          (DialogContext.mk (DialogInstance.with_version v d :: rest))
          (env w).
Proof. unfold stack_of, store_version. intros ->. reflexivity. Qed.

Lemma stored_version_store (w : World Env) v d rest :
  stack_of w = d :: rest ->
  stored_version (store_version v w) = Some v.
Proof.
  intros E. rewrite (store_version_stack _ _ _ _ E). reflexivity.
Qed.

(** The outcome of the version check on a non-empty stack. *)
Lemma check_run (w : World Env) d rest :
  stack_of w = d :: rest ->
  let next := version_token w in
  let w1 := store_version (Some next) w in
  let id := container_id (self w) in
  check_for_version_change_async w =
  if truthy (DialogInstance.version d)
     && py_ne (DialogInstance.version d) (Some next)
  then
    mkOutcome
      (fst (emit_event DialogEvents.version_changed id true false w1))
      [EmitEvent DialogEvents.version_changed id true false]
      (match snd (emit_event DialogEvents.version_changed id true false w1) with
       | Ok _ => Ok tt
       | Raise x => Raise x
       end)
  else mkOutcome w1 [] (Ok tt).
Proof.
  intros E next w1 id.
  pose proof (active_of_stack _ _ _ E) as A.
  unfold check_for_version_change_async, bind.
  rewrite (active_dialog_attr_some _ _ _ _ A). cbn [res final calls].
  rewrite self_get_internal_version_run. cbn [res final calls].
  unfold set_active_dialog_version. rewrite A. cbn [res final calls].
  fold next. fold w1.
  destruct (truthy (DialogInstance.version d)); cbn [andb]; [|reflexivity].
  assert (A1 : DialogContext.active_dialog (dialog_context w1)
               = Some (DialogInstance.with_version (Some next) d)).
  { unfold w1. rewrite (store_version_stack _ _ _ _ E). reflexivity. }
  rewrite (active_dialog_attr_some _ _ _ _ A1). cbn [res final calls].
  cbn [DialogInstance.with_version DialogInstance.version].
  destruct (py_ne (DialogInstance.version d) (Some next)); [|reflexivity].
  unfold ret, call. cbn [res final calls].
  assert (S1 : self w1 = self w).
  { unfold w1. rewrite (store_version_stack _ _ _ _ E). reflexivity. }
  rewrite S1. fold id.
  destruct (emit_event DialogEvents.version_changed id true false w1) as [w2 [b|x]];
    reflexivity.
Qed.

(** The outcome of the version check on an empty stack. *)
Lemma check_run_empty (w : World Env) :
  stack_of w = [] ->
  check_for_version_change_async w =
  mkOutcome w [] (Raise (none_has_no "version")).
Proof.
  intros E. pose proof (active_none_of_stack _ E) as A.
  unfold check_for_version_change_async, bind.
  rewrite (active_dialog_attr_none _ _ _ A). reflexivity.
Qed.

End Runs.

Section Properties.
Context {Env : Type} {host : Collaborators Env}.
Import DialogContainer.

(** The outcome of [on_dialog_event], by cases on what the base handler
    and the trace sink do. *)
Lemma on_dialog_event_run (w : World Env) (e : DialogEvent.t) :
  on_dialog_event e w =
  let w1 := fst (Dialog_on_dialog_event e w) in
  match snd (Dialog_on_dialog_event e w) with
  | Raise x => mkOutcome w1 [SuperOnDialogEvent e] (Raise x)
  | Ok handled =>
      if negb handled && (DialogEvent.name e =? DialogEvents.version_changed)
      then
        match DialogContext.active_dialog (dialog_context w1) with
        | None => mkOutcome w1 [SuperOnDialogEvent e] (Raise (none_has_no "id"))
        | Some d =>
            let msg := trace_message (DialogEvent.name e) (DialogInstance.id d) in
            mkOutcome (fst (send_trace_activity msg w1))
                      [SuperOnDialogEvent e; SendTraceActivity msg]
                      (match snd (send_trace_activity msg w1) with
                       | Ok _ => Ok handled
                       | Raise x => Raise x
                       end)
        end
      else mkOutcome w1 [SuperOnDialogEvent e] (Ok handled)
  end.
Proof.
  unfold on_dialog_event, bind, call.
  destruct (Dialog_on_dialog_event e w) as [w1 [handled|x]];
    cbn [fst snd res final calls]; [|reflexivity].
  destruct (negb handled && (DialogEvent.name e =? DialogEvents.version_changed));
    [|reflexivity].
  unfold active_dialog_attr.
  destruct (DialogContext.active_dialog (dialog_context w1)) as [d|];
    cbn [fst snd res final calls raise ret]; [|reflexivity].
  destruct (send_trace_activity
              (trace_message (DialogEvent.name e) (DialogInstance.id d)) w1)
    as [w2 [[]|x]]; reflexivity.
Qed.

Lemma should_emit_iff (current : option string) (next : string) :
  truthy current && py_ne current (Some next) = true <->
  exists s, current = Some s /\ s <> "" /\ s <> next.
Proof.
  destruct current as [s|]; cbn.
  - rewrite andb_true_iff, !negb_true_iff, !String.eqb_neq. split.
    + intros [? ?]. now exists s.
    + intros (s' & E & ? & ?). injection E as <-. now split.
  - split; [discriminate | intros (s & E & _); discriminate].
Qed.

Lemma append_assoc (a b c : string) : (a ++ b) ++ c = a ++ b ++ c.
Proof. induction a as [|x a IH]; cbn; [reflexivity | now rewrite IH]. Qed.

Lemma append_empty_r (a : string) : a ++ "" = a.
Proof. induction a as [|x a IH]; cbn; [reflexivity | now rewrite IH]. Qed.

Lemma trace_message_contains (event_name active_id : string) :
  contains (trace_message event_name active_id) event_name /\
  contains (trace_message event_name active_id) active_id.
Proof.
  unfold contains, trace_message. split.
  - exists "Unhandled dialog event: ", (". Active Dialog: " ++ active_id).
    reflexivity.
  - exists ("Unhandled dialog event: " ++ event_name ++ ". Active Dialog: "), "".
    rewrite append_empty_r, !append_assoc. reflexivity.
Qed.

(** C1 (as amended). On a context with an active dialog, the version
    check stores the freshly computed fingerprint before anything else
    happens: the event, when there is one, is decided by comparing the OLD
    stored value with the fingerprint and is delivered in a world that
    already holds the new value, and the check ends with whatever that
    delivery leaves and answers; with no event the call returns in the
    world that holds the new value.  Hence the stored version after the
    call is the fingerprint when no event is raised, and, when one is
    raised, whenever its delivery leaves the stored version as it found
    it, whatever the handlers answered. *)
Theorem check_stores_fingerprint_first (w : World Env) d rest :
  stack_of w = d :: rest ->
  let next := version_token w in
  let w1 := mkWorld (self w)
              (DialogContext.mk
                 (DialogInstance.with_version (Some next) d :: rest))
              (env w) in
  let emit := emit_event "versionChanged" (container_id (self w)) true false in
  let o := check_for_version_change_async w in
  stored_version w1 = Some (Some next) /\
  (if truthy (DialogInstance.version d)
      && py_ne (DialogInstance.version d) (Some next)
   then final o = fst (emit w1)
        /\ calls o = [version_changed_event (container_id (self w))]
        /\ res o = match snd (emit w1) with
                   | Ok _ => Ok tt
                   | Raise x => Raise x
                   end
   else final o = w1 /\ calls o = [] /\ res o = Ok tt) /\
  (calls o = [] -> stored_version (final o) = Some (Some next)) /\
  (stored_version (fst (emit w1)) = stored_version w1 ->
   stored_version (final o) = Some (Some next)).
Proof.
  intros E next w1 emit o.
  assert (Eo := check_run w d rest E). fold o in Eo. cbv zeta in Eo.
  rewrite (store_version_stack _ _ _ _ E) in Eo.
  fold next in Eo. fold w1 in Eo.
  change DialogEvents.version_changed with "versionChanged" in Eo.
  fold emit in Eo.
  split; [reflexivity|].
  destruct (truthy (DialogInstance.version d)
            && py_ne (DialogInstance.version d) (Some next));
    rewrite Eo; cbn [final calls res].
  - split; [now repeat split|]. split; [discriminate|].
    intros ->. reflexivity.
  - split; [now repeat split|]. split; reflexivity.
Qed.

(** C2. The version check raises an event exactly when there is an active
    dialog whose previously stored version is set (neither null nor
    empty) and differs from the new fingerprint.  It then calls
    [emit_event] once, with the name "versionChanged", the container's id,
    the bubble flag true and the from_leaf flag false, in the world that
    holds the new fingerprint, and ends with what that call leaves and
    with its exception if it raises one.  Otherwise [emit_event] is not
    called: the check makes no call and ends in the world it wrote itself.
    In particular an instance whose stored version is unset raises
    nothing, whatever the fingerprint. *)
Theorem version_changed_raised_iff (w : World Env) :
  let o := check_for_version_change_async w in
  let w1 := store_version (Some (version_token w)) w in
  let emit := emit_event "versionChanged" (container_id (self w)) true false in
  let due :=
    exists d current,
      DialogContext.active_dialog (dialog_context w) = Some d /\
      DialogInstance.version d = Some current /\
      current <> "" /\ current <> version_token w in
  (due ->
   o = mkOutcome (fst (emit w1))
                 [EmitEvent "versionChanged" (container_id (self w)) true false]
                 (match snd (emit w1) with
                  | Ok _ => Ok tt
                  | Raise x => Raise x
                  end)) /\
  (~ due ->
   o = mkOutcome w1 []
         (match DialogContext.active_dialog (dialog_context w) with
          | Some _ => Ok tt
          | None => Raise (none_has_no "version")
          end)) /\
  (forall c, In c (calls o) <->
     c = EmitEvent "versionChanged" (container_id (self w)) true false /\ due) /\
  length (calls o) <= 1 /\
  (forall d, DialogContext.active_dialog (dialog_context w) = Some d ->
     truthy (DialogInstance.version d) = false ->
     o = mkOutcome w1 [] (Ok tt)).
Proof.
  intros o w1 emit due. subst o.
  destruct (stack_of w) as [|d rest] eqn:E.
  - assert (ND : ~ due).
    { intros (d & cur & A & _).
      rewrite (active_none_of_stack w E) in A. discriminate. }
    assert (W : w1 = w).
    { unfold w1, store_version. unfold stack_of in E. now rewrite E. }
    rewrite (check_run_empty w E), W, (active_none_of_stack w E).
    cbn [calls]. split; [intros D; now contradiction ND|].
    split; [reflexivity|]. split; [|split].
    + intros c. split; [intros [] | intros [_ D]; now contradiction ND].
    + cbn. lia.
    + discriminate.
  - rewrite (check_run w d rest E). cbv zeta. fold w1.
    change DialogEvents.version_changed with "versionChanged". fold emit.
    rewrite (active_of_stack w d rest E).
    pose proof (should_emit_iff (DialogInstance.version d) (version_token w)) as S.
    assert (D : due <-> truthy (DialogInstance.version d)
                        && py_ne (DialogInstance.version d)
                                 (Some (version_token w)) = true).
    { rewrite S. unfold due. rewrite (active_of_stack w d rest E). split.
      - intros (d' & cur & A & Ev & Hne & Hd). injection A as <-. now exists cur.
      - intros (cur & Ev & Hne & Hd). now exists d, cur. }
    clear S.
    destruct (truthy (DialogInstance.version d)
              && py_ne (DialogInstance.version d) (Some (version_token w)))
      eqn:B; cbn [calls].
    + assert (HD : due) by now apply D.
      split; [reflexivity|].
      split; [intros ND; now contradiction ND|]. split; [|split].
      * intros c. cbn [In]. split.
        -- intros [<-|[]]. now split.
        -- intros [-> _]. now left.
      * cbn. lia.
      * intros d' A T. injection A as <-.
        rewrite T in B. discriminate.
    + assert (ND : ~ due) by (intros HD; apply D in HD; discriminate).
      split; [intros HD; now contradiction ND|].
      split; [reflexivity|]. split; [|split].
      * intros c. cbn [In]. split; [intros [] | intros [_ HD]; now contradiction ND].
      * cbn. lia.
      * reflexivity.
Qed.

(** The stored version after a check whose event delivery does not
    rewrite it. *)
Lemma check_leaves_fingerprint (w : World Env) d rest :
  stack_of w = d :: rest ->
  (forall n v b f w',
     stored_version (fst (emit_event n v b f w')) = stored_version w') ->
  stored_version (final (check_for_version_change_async w))
  = Some (Some (version_token w)).
Proof.
  intros E Hframe. rewrite (check_run w d rest E). cbv zeta.
  destruct (truthy (DialogInstance.version d)
            && py_ne (DialogInstance.version d) (Some (version_token w)));
    cbn [final].
  - rewrite Hframe. apply (stored_version_store w _ d rest E).
  - apply (stored_version_store w _ d rest E).
Qed.

Lemma py_ne_same (v : option string) : py_ne v v = false.
Proof. destruct v as [s|]; cbn; [now rewrite String.eqb_refl | reflexivity]. Qed.

(** A check on a world whose stored version already is the fingerprint
    makes no call. *)
Lemma check_quiet_when_current (w : World Env) :
  stored_version w = Some (Some (version_token w)) ->
  calls (check_for_version_change_async w) = [].
Proof.
  unfold stored_version. intros Ev.
  destruct (DialogContext.active_dialog (dialog_context w)) as [d|] eqn:A;
    [|discriminate].
  destruct (stack_of_active w d A) as [rest E].
  cbn in Ev. injection Ev as Ev.
  rewrite (check_run w d rest E). cbv zeta. rewrite Ev, py_ne_same, andb_false_r.
  reflexivity.
Qed.

Lemma store_version_same (w : World Env) v :
  stored_version w = Some v -> store_version v w = w.
Proof.
  unfold stored_version, store_version, DialogContext.active_dialog.
  destruct w as [c [stk] e]. cbn.
  destruct stk as [|[i st ver] rest]; cbn; intros E; [discriminate|].
  injection E as ->. reflexivity.
Qed.

Lemma check_noop (w : World Env) :
  stored_version w = Some (Some (version_token w)) ->
  check_for_version_change_async w = mkOutcome w [] (Ok tt).
Proof.
  intros Ev. pose proof Ev as Ev'. unfold stored_version in Ev'.
  destruct (DialogContext.active_dialog (dialog_context w)) as [d|] eqn:A;
    [|discriminate].
  destruct (stack_of_active w d A) as [rest E].
  cbn in Ev'. injection Ev' as Ev'.
  rewrite (check_run w d rest E). cbv zeta.
  rewrite Ev', py_ne_same, andb_false_r.
  now rewrite (store_version_same w _ Ev).
Qed.

(** C3 (as amended). Two version checks in succession on the same
    context, with no structural change in between (the container computes
    the same fingerprint for the second call as for the first) and with
    handlers that leave the stored version alone, raise at most one event:
    the second call makes no call and changes nothing; on a context with
    an active dialog it reads as [current] the fingerprint the first call
    stored, and returns. *)
Theorem second_check_raises_nothing (w : World Env) :
  (forall n v b f w',
     stored_version (fst (emit_event n v b f w')) = stored_version w') ->
  let o1 := check_for_version_change_async w in
  let o2 := check_for_version_change_async (final o1) in
  version_token (final o1) = version_token w ->
  calls o2 = [] /\
  final o2 = final o1 /\
  length (filter is_emit (calls o1 ++ calls o2)) <= 1 /\
  length (filter is_emit
            (calls (bind check_for_version_change_async
                         (fun _ => check_for_version_change_async) w))) <= 1 /\
  (stack_of w <> [] ->
   stored_version (final o1) = Some (Some (version_token w)) /\
   o2 = mkOutcome (final o1) [] (Ok tt)).
Proof.
  intros Hframe o1 o2 Hdet.
  assert (L : length (filter is_emit (calls o1)) <= 1).
  { unfold o1. destruct (stack_of w) as [|d rest] eqn:E.
    - rewrite (check_run_empty w E). cbn. lia.
    - rewrite (check_run w d rest E). cbv zeta.
      destruct (truthy (DialogInstance.version d)
                && py_ne (DialogInstance.version d) (Some (version_token w)));
        cbn; lia. }
  assert (Q : calls o2 = [] /\ final o2 = final o1 /\
              (stack_of w <> [] ->
               stored_version (final o1) = Some (Some (version_token w)) /\
               o2 = mkOutcome (final o1) [] (Ok tt))).
  { destruct (stack_of w) as [|d rest] eqn:E.
    - assert (F : final o1 = w) by (unfold o1; now rewrite (check_run_empty w E)).
      unfold o2. rewrite F, (check_run_empty w E). cbn [calls final].
      split; [reflexivity|]. split; [reflexivity|].
      intros N. now contradiction N.
    - pose proof (check_leaves_fingerprint w d rest E Hframe) as V.
      fold o1 in V.
      assert (N : o2 = mkOutcome (final o1) [] (Ok tt)).
      { apply check_noop. now rewrite Hdet. }
      rewrite N. cbn [calls final]. now repeat split. }
  destruct Q as (Q1 & Q2 & Q3).
  split; [exact Q1|]. split; [exact Q2|]. split; [|split; [|exact Q3]].
  - rewrite Q1, app_nil_r. exact L.
  - unfold bind. fold o1. destruct (res o1); cbn [calls].
    + fold o2. rewrite Q1, app_nil_r. exact L.
    + exact L.
Qed.

(** C4. When the base handler leaves a "versionChanged" event unhandled
    and there is an active dialog, [on_dialog_event] sends exactly one
    trace by calling [send_trace_activity], once, after the base handler,
    with a message that contains the name of the event and the id of the
    active dialog; it ends in the world the sink leaves.  When the base
    handler handled the event, or the event has another name, the sink is
    not called: the only call is the one to the base handler, and the
    world and the result are the ones it left. *)
Theorem unhandled_version_change_traced (w : World Env) (e : DialogEvent.t) :
  let w1 := fst (Dialog_on_dialog_event e w) in
  let o := on_dialog_event e w in
  (forall d,
     snd (Dialog_on_dialog_event e w) = Ok false ->
     DialogEvent.name e = "versionChanged" ->
     DialogContext.active_dialog (dialog_context w1) = Some d ->
     exists message,
       message = trace_message "versionChanged" (DialogInstance.id d) /\
       contains message (DialogEvent.name e) /\
       contains message (DialogInstance.id d) /\
       o = mkOutcome (fst (send_trace_activity message w1))
                     [SuperOnDialogEvent e; SendTraceActivity message]
                     (match snd (send_trace_activity message w1) with
                      | Ok _ => Ok false
                      | Raise x => Raise x
                      end) /\
       filter is_trace (calls o) = [SendTraceActivity message]) /\
  (snd (Dialog_on_dialog_event e w) = Ok true \/
   DialogEvent.name e <> "versionChanged" ->
   o = mkOutcome w1 [SuperOnDialogEvent e] (snd (Dialog_on_dialog_event e w)) /\
   filter is_trace (calls o) = []).
Proof.
  intros w1 o. unfold o. rewrite on_dialog_event_run. cbv zeta. fold w1.
  split.
  - intros d Hb Hn A. rewrite Hb, Hn. cbn [negb andb].
    change ("versionChanged" =? DialogEvents.version_changed) with true.
    cbn match. rewrite A. cbn [calls filter is_trace].
    eexists. split; [reflexivity|].
    split; [rewrite <- Hn; apply trace_message_contains|].
    split; [apply trace_message_contains|].
    split; reflexivity.
  - intros [Hb|Hn].
    + rewrite Hb. split; reflexivity.
    + apply String.eqb_neq in Hn.
      change "versionChanged" with DialogEvents.version_changed in Hn.
      destruct (snd (Dialog_on_dialog_event e w)) as [handled|x];
        [|split; reflexivity].
      rewrite Hn, andb_false_r. split; reflexivity.
Qed.

(** C5. [on_dialog_event] returns the verdict of the base handler and
    nothing else: whenever it returns, the value is the one the base
    handler returned; and whenever the base handler returns a verdict, the
    container returns that verdict as soon as the trace step, if taken,
    completes.  In particular an unhandled "versionChanged" event is still
    reported as not handled after the trace is sent. *)
Theorem on_dialog_event_keeps_verdict (w : World Env) (e : DialogEvent.t)
    (handled : bool) :
  let w1 := fst (Dialog_on_dialog_event e w) in
  (res (on_dialog_event e w) = Ok handled ->
   snd (Dialog_on_dialog_event e w) = Ok handled) /\
  (snd (Dialog_on_dialog_event e w) = Ok handled ->
   (handled = true \/ DialogEvent.name e <> "versionChanged" \/
    exists d,
      DialogContext.active_dialog (dialog_context w1) = Some d /\
      snd (send_trace_activity
             (trace_message (DialogEvent.name e) (DialogInstance.id d)) w1)
      = Ok tt) ->
   res (on_dialog_event e w) = Ok handled).
Proof.
  intros w1. rewrite on_dialog_event_run. cbv zeta. fold w1.
  destruct (snd (Dialog_on_dialog_event e w)) as [b|x].
  - destruct (negb b && (DialogEvent.name e =? DialogEvents.version_changed))
      eqn:B.
    + destruct (DialogContext.active_dialog (dialog_context w1)) as [d|].
      * cbn [res]. split.
        -- destruct (snd (send_trace_activity _ w1)); [tauto | discriminate].
        -- intros Eb [Ht|[Hn|(d' & A & S)]].
           ++ injection Eb as ->. subst handled. discriminate.
           ++ apply String.eqb_neq in Hn.
              change "versionChanged" with DialogEvents.version_changed in Hn.
              rewrite Hn, andb_false_r in B. discriminate.
           ++ injection A as <-. rewrite S. exact Eb.
      * cbn [res]. split; [discriminate|].
        intros Eb [Ht|[Hn|(d' & A & S)]].
        -- injection Eb as ->. subst handled. discriminate.
        -- apply String.eqb_neq in Hn.
           change "versionChanged" with DialogEvents.version_changed in Hn.
           rewrite Hn, andb_false_r in B. discriminate.
        -- discriminate.
    + cbn [res]. tauto.
  - cbn [res]. split; discriminate.
Qed.

Lemma stored_version_of_stack (w w' : World Env) :
  stack_of w' = stack_of w -> stored_version w' = stored_version w.
Proof.
  unfold stored_version, DialogContext.active_dialog, stack_of.
  now intros ->.
Qed.

(** C6. The lookup, the fingerprint and the event handler do not write
    [active_dialog.version]: [find_dialog] and [get_internal_version] end
    in the world they started in, and [on_dialog_event] ends in the world
    its collaborators left (the base handler's, or the trace sink's after
    it), so the stack and the stored version are unchanged whenever those
    collaborators leave the stack alone. *)
Theorem lookups_and_events_keep_version (w : World Env) :
  (forall dialog_id, final (find_dialog dialog_id w) = w) /\
  final (get_internal_version w) = w /\
  (forall e,
     let o := on_dialog_event e w in
     let w1 := fst (Dialog_on_dialog_event e w) in
     (final o = w1 \/
      exists message, final o = fst (send_trace_activity message w1)) /\
     (keeps_stack (Dialog_on_dialog_event e) ->
      (forall message, keeps_stack (send_trace_activity message)) ->
      stack_of (final o) = stack_of w /\
      stored_version (final o) = stored_version w)).
Proof.
  split; [reflexivity|]. split; [reflexivity|].
  intros e o w1.
  assert (D : final o = w1 \/
              exists message, final o = fst (send_trace_activity message w1)).
  { unfold o. rewrite on_dialog_event_run. cbv zeta. fold w1.
    destruct (snd (Dialog_on_dialog_event e w)) as [b|x]; [|now left].
    destruct (negb b && (DialogEvent.name e =? DialogEvents.version_changed));
      [|now left].
    destruct (DialogContext.active_dialog (dialog_context w1)) as [d|];
      [|now left].
    right. eexists. reflexivity. }
  split; [exact D|].
  intros Kb Kt.
  assert (S : stack_of (final o) = stack_of w).
  { destruct D as [-> | [message ->]].
    - apply Kb.
    - rewrite Kt. apply Kb. }
  split; [exact S | now apply stored_version_of_stack].
Qed.

(** C7. An exception raised by the base handler, or by the trace sink,
    comes out of [on_dialog_event] as it is: the container catches
    nothing. *)
Theorem handler_exceptions_propagate (w : World Env) (e : DialogEvent.t)
    (x : exn) :
  let w1 := fst (Dialog_on_dialog_event e w) in
  (snd (Dialog_on_dialog_event e w) = Raise x ->
   on_dialog_event e w = mkOutcome w1 [SuperOnDialogEvent e] (Raise x)) /\
  (forall d,
     snd (Dialog_on_dialog_event e w) = Ok false ->
     DialogEvent.name e = "versionChanged" ->
     DialogContext.active_dialog (dialog_context w1) = Some d ->
     snd (send_trace_activity
            (trace_message "versionChanged" (DialogInstance.id d)) w1)
     = Raise x ->
     res (on_dialog_event e w) = Raise x).
Proof.
  intros w1. rewrite on_dialog_event_run. cbv zeta. fold w1. split.
  - intros ->. reflexivity.
  - intros d -> -> A S. cbn [negb andb].
    change ("versionChanged" =? DialogEvents.version_changed) with true.
    cbn match. rewrite A. cbn [res]. rewrite S. reflexivity.
Qed.

Lemma find_absent {A} (f : A -> bool) (l : list A) :
  (forall a, In a l -> f a = false) -> find f l = None.
Proof.
  induction l as [|a l IH]; cbn; intros Hall; [reflexivity|].
  rewrite (Hall a (or_introl eq_refl)). apply IH.
  intros b Hb. apply Hall. now right.
Qed.

(** C8. [find_dialog(id)] returns what the lookup of the container's
    [DialogSet] returns, changes nothing and calls nobody; for an id that
    no member carries the result is not-found, returned and not raised,
    and a Dialog that is returned is a member carrying the id. *)
Theorem find_dialog_delegates (w : World Env) (dialog_id : string) :
  let o := find_dialog dialog_id w in
  res o = Ok (DialogSet.find_dialog (dialogs (self w)) dialog_id) /\
  final o = w /\
  calls o = [] /\
  ((forall d, In d (DialogSet.members (dialogs (self w))) ->
              Dialog.id d <> dialog_id) ->
   res o = Ok None) /\
  (forall d, res o = Ok (Some d) ->
             In d (DialogSet.members (dialogs (self w))) /\
             Dialog.id d = dialog_id).
Proof.
  intros o. unfold o, find_dialog, ret. cbn [res final calls].
  split; [reflexivity|]. split; [reflexivity|]. split; [reflexivity|]. split.
  - intros Habs. f_equal. unfold DialogSet.find_dialog.
    apply find_absent. intros d Hd. apply String.eqb_neq. now apply Habs.
  - intros d E. injection E as E. unfold DialogSet.find_dialog in E.
    apply find_some in E. destruct E as [Hin Hid].
    apply String.eqb_eq in Hid. now split.
Qed.

(** C9. [get_internal_version()] as [DialogContainer] defines it returns
    the fingerprint of the container's [DialogSet] and does nothing else:
    the world is unchanged, no collaborator is called, and two containers
    with the same set get the same token whatever else differs; it is what
    [self.get_internal_version()] runs unless a subclass overrides it. *)
Theorem get_internal_version_delegates (w : World Env) :
  get_internal_version w =
  mkOutcome w []
    (Ok (DialogSet.get_internal_version fingerprint (dialogs (self w)))) /\
  (forall w' : World Env,
     dialogs (self w') = dialogs (self w) ->
     res (get_internal_version w') = res (get_internal_version w)) /\
  (get_internal_version_override = None ->
   self_get_internal_version w = get_internal_version w).
Proof.
  split; [reflexivity|]. split.
  - intros w' E. unfold get_internal_version, ret. cbn [res]. now rewrite E.
  - intros E. unfold self_get_internal_version. now rewrite E.
Qed.

(** C10. Both dereferences of [dialog_context.active_dialog] are
    unguarded.  On an empty stack the version check fails at once with the
    AttributeError of [None.version], having changed and called nothing;
    and [on_dialog_event] fails with that of [None.id], without sending a
    trace, when the base handler leaves a "versionChanged" event unhandled
    on an empty stack.  On a non-empty stack neither fails on its own: the
    check returns unless the event delivery raises, and the handler
    returns the verdict unless the trace sink raises. *)
Theorem active_dialog_required (w : World Env) :
  (stack_of w = [] ->
   check_for_version_change_async w =
   mkOutcome w [] (Raise (none_has_no "version"))) /\
  (forall e,
     snd (Dialog_on_dialog_event e w) = Ok false ->
     DialogEvent.name e = "versionChanged" ->
     stack_of (fst (Dialog_on_dialog_event e w)) = [] ->
     on_dialog_event e w =
     mkOutcome (fst (Dialog_on_dialog_event e w)) [SuperOnDialogEvent e]
               (Raise (none_has_no "id"))) /\
  (stack_of w <> [] ->
   res (check_for_version_change_async w) = Ok tt \/
   exists x,
     res (check_for_version_change_async w) = Raise x /\
     snd (emit_event "versionChanged" (container_id (self w)) true false
            (store_version (Some (version_token w)) w)) = Raise x) /\
  (forall e handled,
     snd (Dialog_on_dialog_event e w) = Ok handled ->
     stack_of (fst (Dialog_on_dialog_event e w)) <> [] ->
     res (on_dialog_event e w) = Ok handled \/
     exists x message,
       res (on_dialog_event e w) = Raise x /\
       snd (send_trace_activity message (fst (Dialog_on_dialog_event e w)))
       = Raise x).
Proof.
  split; [apply check_run_empty|]. split; [|split].
  - intros e Hb Hn Hs. rewrite on_dialog_event_run. cbv zeta.
    rewrite Hb, Hn, (active_none_of_stack _ Hs). reflexivity.
  - intros Hs. destruct (stack_of w) as [|d rest] eqn:E; [contradiction|].
    rewrite (check_run w d rest E). cbv zeta.
    change DialogEvents.version_changed with "versionChanged".
    destruct (truthy (DialogInstance.version d)
              && py_ne (DialogInstance.version d) (Some (version_token w)));
      cbn [res]; [|now left].
    destruct (snd (emit_event "versionChanged" (container_id (self w)) true
                     false (store_version (Some (version_token w)) w)))
      as [b|x]; [now left|].
    right. now exists x.
  - intros e handled Hb Hs. rewrite on_dialog_event_run. cbv zeta. rewrite Hb.
    destruct (negb handled
              && (DialogEvent.name e =? DialogEvents.version_changed));
      [|now left].
    destruct (DialogContext.active_dialog
                (dialog_context (fst (Dialog_on_dialog_event e w))))
      as [d|] eqn:A.
    + cbn [res].
      destruct (snd (send_trace_activity
                       (trace_message (DialogEvent.name e) (DialogInstance.id d))
                       (fst (Dialog_on_dialog_event e w)))) as [u|x] eqn:S;
        [now left|].
      right. exists x. eexists. split; [reflexivity | exact S].
    + exfalso. apply Hs.
      unfold stack_of, DialogContext.active_dialog in *.
      destruct (DialogContext.stack
                  (dialog_context (fst (Dialog_on_dialog_event e w))));
        [reflexivity | discriminate].
Qed.

End Properties.

(** ** The properties at concrete inputs *)

Section Instances.
Import DialogContainer.

(** A first run stores the fingerprint and raises nothing; once a child
    has been added, the next run raises the event once and stores the new
    fingerprint. *)
Example first_run_then_growth :
  let o1 := check_for_version_change_async (host := nobody_handles)
              first_run_world in
  calls o1 = [] /\
  stored_version (final o1) = Some (Some "a=;b=2") /\
  match DialogSet.add (dialogs (self (final o1))) (Dialog.mk "c" None) with
  | Ok ds =>
      let o2 := check_for_version_change_async (host := nobody_handles)
                  (with_dialogs ds (final o1)) in
      calls o2 = [version_changed_event "root"] /\
      stored_version (final o2) = Some (Some "a=;b=2;c=")
  | Raise _ => False
  end.
Proof. repeat split. Qed.

(** Registering an id twice is rejected. *)
Example add_rejects_duplicate :
  DialogSet.add (dialogs two_children) (Dialog.mk "a" (Some "9"))
  = Raise (DuplicateIdError "a").
Proof. reflexivity. Qed.

(** A handler that ends the active dialog: the check has run on a
    context with an active dialog and returned, and the version stored in
    the active dialog is not the fingerprint. *)
Lemma handler_can_overwrite_stored_version :
  let o := check_for_version_change_async (host := ends_dialog_on_event)
             stale_world in
  stack_of stale_world
  = [DialogInstance.mk "root" [] (Some "F1"); DialogInstance.mk "main" [] None] /\
  version_token (host := ends_dialog_on_event) stale_world = "a=;b=2" /\
  res o = Ok tt /\
  calls o = [version_changed_event "root"] /\
  stored_version (final o) = Some None /\
  stored_version (final o)
  <> Some (Some (version_token (host := ends_dialog_on_event) stale_world)).
Proof. repeat split. discriminate. Qed.

Lemma check_stores_fingerprint_first_witness :
  let o := check_for_version_change_async (host := app_handles) stale_world in
  stack_of stale_world
  = [DialogInstance.mk "root" [] (Some "F1"); DialogInstance.mk "main" [] None] /\
  calls o = [version_changed_event "root"] /\
  res o = Ok tt /\
  stored_version (final o) = Some (Some "a=;b=2").
Proof.
  pose proof (check_stores_fingerprint_first (host := app_handles)
                stale_world _ _ eq_refl) as P.
  cbv zeta in P. destruct P as (_ & P2 & _ & P4).
  cbn [truthy py_ne DialogInstance.version negb andb] in P2.
  change (version_token (host := app_handles) stale_world) with "a=;b=2" in P2.
  cbn [String.eqb Ascii.eqb Bool.eqb negb andb] in P2.
  split; [reflexivity|]. split; [exact (proj1 (proj2 P2))|].
  split; [exact (proj2 (proj2 P2))|].
  apply P4. reflexivity.
Defined.

Lemma version_changed_raised_iff_witness :
  check_for_version_change_async (host := broken) stale_world
  = mkOutcome (store_version (Some "a=;b=2") stale_world)
              [EmitEvent "versionChanged" "root" true false]
              (Raise (Failure "emit")) /\
  check_for_version_change_async (host := broken) first_run_world
  = mkOutcome (store_version (Some "a=;b=2") first_run_world) [] (Ok tt).
Proof.
  split.
  - apply (proj1 (version_changed_raised_iff (host := broken) stale_world)).
    exists (DialogInstance.mk "root" [] (Some "F1")), "F1".
    repeat split; discriminate.
  - apply (proj2 (proj2 (proj2 (proj2 (version_changed_raised_iff
                                         (host := broken) first_run_world))))
             (DialogInstance.mk "root" [] None)); reflexivity.
Defined.

(** A handler that stamps the active instance with a version of its
    own: the container computes the same fingerprint at both runs, and
    each of the two runs raises the event. *)
Lemma two_checks_can_raise_two_events :
  let o1 := check_for_version_change_async (host := restamps_on_event)
              stale_world in
  let o2 := check_for_version_change_async (host := restamps_on_event)
              (final o1) in
  version_token (host := restamps_on_event) (final o1)
  = version_token (host := restamps_on_event) stale_world /\
  res o1 = Ok tt /\
  calls o1 = [version_changed_event "root"] /\
  calls o2 = [version_changed_event "root"] /\
  length (filter is_emit (calls o1 ++ calls o2)) = 2 /\
  ~ length (filter is_emit (calls o1 ++ calls o2)) <= 1.
Proof. repeat split. cbn. lia. Qed.

Lemma second_check_raises_nothing_witness :
  let o1 := check_for_version_change_async (host := nobody_handles) stale_world in
  calls o1 = [version_changed_event "root"] /\
  check_for_version_change_async (host := nobody_handles) (final o1)
  = mkOutcome (final o1) [] (Ok tt).
Proof.
  intros o1. split; [reflexivity|].
  apply (second_check_raises_nothing (host := nobody_handles) stale_world
           (fun _ _ _ _ _ => eq_refl) eq_refl).
  discriminate.
Defined.

Lemma unhandled_version_change_traced_witness :
  on_dialog_event (host := nobody_handles) (version_changed_on "root") stale_world
  = mkOutcome
      (mkWorld two_children (dialog_context stale_world)
         ["Unhandled dialog event: versionChanged. Active Dialog: root"])
      [SuperOnDialogEvent (version_changed_on "root");
       SendTraceActivity
         "Unhandled dialog event: versionChanged. Active Dialog: root"]
      (Ok false).
Proof.
  destruct (proj1 (unhandled_version_change_traced (host := nobody_handles)
                     stale_world (version_changed_on "root"))
              (DialogInstance.mk "root" [] (Some "F1")) eq_refl eq_refl eq_refl)
    as (message & -> & _ & _ & R & _).
  exact R.
Defined.

Lemma on_dialog_event_keeps_verdict_witness :
  res (on_dialog_event (host := nobody_handles)
         (version_changed_on "root") stale_world) = Ok false.
Proof.
  apply (proj2 (on_dialog_event_keeps_verdict (host := nobody_handles)
                  stale_world (version_changed_on "root") false) eq_refl).
  right. right. exists (DialogInstance.mk "root" [] (Some "F1")).
  split; reflexivity.
Defined.

Lemma lookups_and_events_keep_version_witness :
  stored_version
    (final (on_dialog_event (host := nobody_handles)
              (version_changed_on "root") stale_world))
  = Some (Some "F1").
Proof.
  apply (proj2 (proj2 (proj2 (proj2 (lookups_and_events_keep_version
                                       (host := nobody_handles) stale_world))
                         (version_changed_on "root"))
                  (fun _ => eq_refl) (fun _ _ => eq_refl))).
Defined.

Lemma handler_exceptions_propagate_witness :
  res (on_dialog_event (host := broken) (DialogEvent.mk "boom" "" true)
         stale_world) = Raise (Failure "handler") /\
  res (on_dialog_event (host := broken) (version_changed_on "root")
         stale_world) = Raise (Failure "sink").
Proof.
  split.
  - rewrite (proj1 (handler_exceptions_propagate (host := broken) stale_world
                      (DialogEvent.mk "boom" "" true) (Failure "handler"))
               eq_refl).
    reflexivity.
  - exact (proj2 (handler_exceptions_propagate (host := broken) stale_world
                    (version_changed_on "root") (Failure "sink"))
             (DialogInstance.mk "root" [] (Some "F1"))
             eq_refl eq_refl eq_refl eq_refl).
Defined.

Lemma find_dialog_delegates_witness :
  res (find_dialog "missing"
         (mkWorld (mkContainer "root" (DialogSet.mk [Dialog.mk "a" None]))
                  (DialogContext.mk []) tt))
  = Ok None.
Proof.
  apply (proj1 (proj2 (proj2 (proj2 (find_dialog_delegates
           (mkWorld (mkContainer "root" (DialogSet.mk [Dialog.mk "a" None]))
                    (DialogContext.mk []) tt) "missing"))))).
  intros d [<-|[]]. discriminate.
Defined.

Lemma get_internal_version_delegates_witness :
  res (self_get_internal_version (host := nobody_handles) stale_world)
  = Ok "a=;b=2" /\
  res (get_internal_version (host := nobody_handles) idle_world)
  = res (get_internal_version (host := nobody_handles) stale_world).
Proof.
  destruct (get_internal_version_delegates (host := nobody_handles) stale_world)
    as (P1 & P2 & P3).
  split.
  - rewrite (P3 eq_refl), P1. reflexivity.
  - apply P2. reflexivity.
Defined.

Lemma active_dialog_required_witness :
  res (check_for_version_change_async (host := nobody_handles) idle_world)
  = Raise (AttributeError "'NoneType' object has no attribute 'version'") /\
  res (on_dialog_event (host := nobody_handles) (version_changed_on "root")
         idle_world)
  = Raise (AttributeError "'NoneType' object has no attribute 'id'").
Proof.
  destruct (active_dialog_required (host := nobody_handles) idle_world)
    as (P1 & P2 & _).
  split.
  - rewrite (P1 eq_refl). reflexivity.
  - rewrite (P2 (version_changed_on "root") eq_refl eq_refl eq_refl).
    reflexivity.
Defined.

End Instances.

(** ** Further properties of the version check and of the event handler *)

Section Composition.
Context {Env : Type} {host : Collaborators Env}.
Import DialogContainer.

Lemma store_version_self (w : World Env) v : self (store_version v w) = self w.
Proof.
  unfold store_version.
  now destruct (DialogContext.stack (dialog_context w)).
Qed.

Lemma version_token_default (w : World Env) :
  get_internal_version_override = None ->
  version_token w
  = DialogSet.get_internal_version fingerprint (dialogs (self w)).
Proof. unfold version_token. now intros ->. Qed.

(** X1. The check does nothing at all (it returns, the world is the one
    it started in, and no collaborator is called) exactly when the stored
    version of the active instance already is the container's
    fingerprint. *)
Theorem check_is_noop_iff_current (w : World Env) :
  check_for_version_change_async w = mkOutcome w [] (Ok tt) <->
  stored_version w = Some (Some (version_token w)).
Proof.
  split; [|apply check_noop].
  destruct (stack_of w) as [|d rest] eqn:E.
  - rewrite (check_run_empty w E). discriminate.
  - rewrite (check_run w d rest E). cbv zeta.
    destruct (truthy (DialogInstance.version d)
              && py_ne (DialogInstance.version d) (Some (version_token w)));
      [discriminate|].
    intros R. injection R as R. rewrite <- R at 1.
    apply (stored_version_store w _ d rest E).
Qed.

(** X2. With the fingerprint as [DialogContainer] defines it, a handler
    that runs the version check again while the event is being delivered
    sees no change: in the world handed to [emit_event] the check returns
    without a call and without touching the world. *)
Theorem nested_check_is_noop (w : World Env) d rest :
  get_internal_version_override = None ->
  stack_of w = d :: rest ->
  let w1 := store_version (Some (version_token w)) w in
  (calls (check_for_version_change_async w) <> [] ->
   final (check_for_version_change_async w)
   = fst (emit_event "versionChanged" (container_id (self w)) true false w1)) /\
  check_for_version_change_async w1 = mkOutcome w1 [] (Ok tt).
Proof.
  intros Hov E w1. split.
  - rewrite (check_run w d rest E). cbv zeta. fold w1.
    destruct (truthy (DialogInstance.version d)
              && py_ne (DialogInstance.version d) (Some (version_token w)));
      cbn [calls final]; [reflexivity | intros N; now contradiction N].
  - apply check_noop.
    assert (T : version_token w1 = version_token w).
    { rewrite !version_token_default by exact Hov.
      unfold w1. now rewrite store_version_self. }
    rewrite T. apply (stored_version_store w _ d rest E).
Qed.




(** X5. Apart from the version of the active instance the check itself
    changes nothing: the world it ends in, or hands to [emit_event] when it
    raises the event, has the container, the environment, the ids and the
    states of all instances, and the instances below the active one as
    they were. *)
Theorem check_touches_only_the_version (w : World Env) :
  let o := check_for_version_change_async w in
  exists w',
    (calls o = [] -> final o = w') /\
    (calls o <> [] ->
     final o
     = fst (emit_event "versionChanged" (container_id (self w)) true false w')) /\
    self w' = self w /\
    env w' = env w /\
    map DialogInstance.id (stack_of w') = map DialogInstance.id (stack_of w) /\
    map DialogInstance.state (stack_of w')
    = map DialogInstance.state (stack_of w) /\
    tl (stack_of w') = tl (stack_of w).
Proof.
  intros o. subst o. destruct (stack_of w) as [|d rest] eqn:E.
  - exists w. rewrite (check_run_empty w E). cbn [calls final]. rewrite E.
    repeat split; intros N; now contradiction N.
  - exists (store_version (Some (version_token w)) w).
    rewrite (check_run w d rest E). cbv zeta.
    split; [|split].
    + destruct (truthy (DialogInstance.version d)
                && py_ne (DialogInstance.version d) (Some (version_token w)));
        cbn [calls final]; [discriminate | reflexivity].
    + destruct (truthy (DialogInstance.version d)
                && py_ne (DialogInstance.version d) (Some (version_token w)));
        cbn [calls final]; [reflexivity | intros N; now contradiction N].
    + rewrite (store_version_stack w _ d rest E).
      unfold stack_of. cbn [self env dialog_context DialogContext.stack].
      repeat split.
Qed.


Lemma check_n_noop (n : nat) (w : World Env) :
  stored_version w = Some (Some (version_token w)) ->
  check_n n w = mkOutcome w [] (Ok tt).
Proof.
  intros Ev. induction n as [|n IH]; [reflexivity|].
  cbn [check_n]. unfold bind. rewrite (check_noop w Ev). cbn [res final calls].
  rewrite IH. reflexivity.
Qed.

(** X7. Any number of runs in a row raise at most one event, and none
    after the first run, when the container keeps the fingerprint
    [DialogContainer] defines and handlers change neither the stored
    version nor the container's set of dialogs. *)
Theorem successive_checks_raise_once (n : nat) (w : World Env) :
  get_internal_version_override = None ->
  (forall m v b f w',
     stored_version (fst (emit_event m v b f w')) = stored_version w') ->
  (forall m v b f w',
     dialogs (self (fst (emit_event m v b f w'))) = dialogs (self w')) ->
  calls (check_n (S n) w) = calls (check_for_version_change_async w) /\
  length (filter is_emit (calls (check_n (S n) w))) <= 1.
Proof.
  intros Hov Hframe Hset.
  assert (L : length (filter is_emit (calls (check_for_version_change_async w)))
              <= 1).
  { destruct (stack_of w) as [|d rest] eqn:E.
    - rewrite (check_run_empty w E). cbn. lia.
    - rewrite (check_run w d rest E). cbv zeta.
      destruct (truthy (DialogInstance.version d)
                && py_ne (DialogInstance.version d) (Some (version_token w)));
        cbn; lia. }
  assert (C : calls (check_n (S n) w)
              = calls (check_for_version_change_async w)).
  { cbn [check_n]. unfold bind.
    destruct (res (check_for_version_change_async w)) eqn:R; cbn [calls];
      [|reflexivity].
    destruct (stack_of w) as [|d rest] eqn:E.
    { rewrite (check_run_empty w E) in R. discriminate. }
    rewrite check_n_noop; [cbn [calls]; apply app_nil_r|].
    rewrite (check_leaves_fingerprint w d rest E Hframe). do 2 f_equal.
    rewrite !version_token_default by exact Hov. f_equal.
    rewrite (check_run w d rest E). cbv zeta.
    destruct (truthy (DialogInstance.version d)
              && py_ne (DialogInstance.version d) (Some (version_token w)));
      cbn [final]; [rewrite Hset|]; now rewrite store_version_self. }
  split; [exact C | rewrite C; exact L].
Qed.

(** A container that has just been constructed has no children:
    [find_dialog] returns not-found for every id, in every context, and
    its fingerprint is that of the empty set whatever id it was given. *)
Theorem new_container_has_no_children (container : string)
    (dc : DialogContext.t) (e : Env) (dialog_id : string) :
  let w := mkWorld (init container) dc e in
  find_dialog dialog_id w = mkOutcome w [] (Ok None) /\
  res (get_internal_version w) = Ok (fingerprint []).
Proof. split; reflexivity. Qed.

Lemma append_cancel_l (p a b : string) : p ++ a = p ++ b -> a = b.
Proof.
  induction p as [|c p IH]; cbn; intros E; [exact E|].
  injection E as E. now apply IH.
Qed.

(** X8. The trace of an unhandled event identifies the active dialog:
    for one event name, different ids give different messages. *)
Theorem trace_message_identifies_dialog (event_name id1 id2 : string) :
  trace_message event_name id1 = trace_message event_name id2 -> id1 = id2.
Proof.
  unfold trace_message. intros E.
  apply append_cancel_l in E. apply append_cancel_l in E.
  now apply append_cancel_l in E.
Qed.

(** X9. A change whose handling fails is not reported again: when the
    event is raised and its delivery raises an exception, the check raises
    that exception, yet the new fingerprint is already stored, so the next
    run, with the same fingerprint, does nothing. *)
Theorem failed_handling_consumes_change (w : World Env) d rest current x :
  stack_of w = d :: rest ->
  DialogInstance.version d = Some current ->
  current <> "" ->
  current <> version_token w ->
  (forall n v b f w',
     stored_version (fst (emit_event n v b f w')) = stored_version w') ->
  snd (emit_event "versionChanged" (container_id (self w)) true false
         (store_version (Some (version_token w)) w)) = Raise x ->
  let o1 := check_for_version_change_async w in
  res o1 = Raise x /\
  calls o1 = [version_changed_event (container_id (self w))] /\
  stored_version (final o1) = Some (Some (version_token w)) /\
  (version_token (final o1) = version_token w ->
   check_for_version_change_async (final o1)
   = mkOutcome (final o1) [] (Ok tt)).
Proof.
  intros E Ev Hne Hd Hframe Hx o1.
  pose proof (check_leaves_fingerprint w d rest E Hframe) as V. fold o1 in V.
  assert (B : truthy (DialogInstance.version d)
              && py_ne (DialogInstance.version d) (Some (version_token w))
              = true).
  { apply should_emit_iff. now exists current. }
  assert (R : o1 = mkOutcome
                     (fst (emit_event "versionChanged" (container_id (self w))
                             true false
                             (store_version (Some (version_token w)) w)))
                     [version_changed_event (container_id (self w))]
                     (Raise x)).
  { unfold o1. rewrite (check_run w d rest E). cbv zeta. rewrite B.
    change DialogEvents.version_changed with "versionChanged".
    rewrite Hx. reflexivity. }
  split; [now rewrite R|]. split; [now rewrite R|]. split; [exact V|].
  intros T. apply check_noop. now rewrite T.
Qed.

End Composition.

Section MoreInstances.
Import DialogContainer.

Lemma check_is_noop_iff_current_witness :
  stored_version current_world = Some (Some "a=;b=2") /\
  check_for_version_change_async (host := app_handles) current_world
  = mkOutcome current_world [] (Ok tt).
Proof.
  split; [reflexivity|].
  apply (proj2 (check_is_noop_iff_current (host := app_handles) current_world)).
  reflexivity.
Defined.

Lemma nested_check_is_noop_witness :
  let w1 := store_version (Some "a=;b=2") stale_world in
  check_for_version_change_async (host := grows_on_event) w1
  = mkOutcome w1 [] (Ok tt).
Proof.
  exact (proj2 (nested_check_is_noop (host := grows_on_event) stale_world _ _
                  eq_refl eq_refl)).
Defined.



Lemma successive_checks_raise_once_witness :
  calls (check_n (host := nobody_handles) 3 stale_world)
  = [version_changed_event "root"].
Proof.
  rewrite (proj1 (successive_checks_raise_once (host := nobody_handles) 2
                    stale_world eq_refl
                    (fun _ _ _ _ _ => eq_refl) (fun _ _ _ _ _ => eq_refl))).
  reflexivity.
Defined.

Lemma trace_message_identifies_dialog_witness :
  trace_message "versionChanged" "root" = trace_message "versionChanged" "root" /\
  "root" = "root".
Proof.
  split; [reflexivity|].
  apply (trace_message_identifies_dialog "versionChanged" "root" "root").
  reflexivity.
Defined.

Lemma failed_handling_consumes_change_witness :
  let o1 := check_for_version_change_async (host := broken) stale_world in
  res o1 = Raise (Failure "emit") /\
  stored_version (final o1) = Some (Some "a=;b=2") /\
  check_for_version_change_async (host := broken) (final o1)
  = mkOutcome (final o1) [] (Ok tt).
Proof.
  pose proof (failed_handling_consumes_change (host := broken) stale_world
                _ _ "F1" (Failure "emit") eq_refl eq_refl) as P.
  cbv zeta in P.
  destruct P as (P1 & _ & P3 & P4);
    [discriminate | discriminate | reflexivity | reflexivity |].
  split; [exact P1|]. split; [exact P3|]. apply P4. reflexivity.
Defined.

End MoreInstances.
